(** * A static binary responder: [test-binary-server.py]

    The script defines one request handler class, [BinaryTestHandler], on top
    of the [http.server] base class.  Its [do_GET] method compares [self.path]
    with five string literals and, in each branch, calls [send_response],
    [send_header], [end_headers] and [wfile.write] with literal data; its
    [log_message] method prints one line per logged event.

    The development follows the script: the payload literals, the base-class
    calls a handler can make and what they do to the connection, [do_GET] as
    the sequence of calls of the selected branch, and [log_message]. *)

From Stdlib Require Import List String Ascii Arith Lia Bool.
From Stdlib.Strings Require Import Byte.
From Stdlib Require Import NArith DecimalString.
From Stdlib Require DecimalFacts DecimalNat Permutation.
Import ListNotations.

Local Open Scope string_scope.
Local Open Scope list_scope.

(** ** Python values used by the script *)

Module Py.

(** [len(b)] of a bytes object. *)
Definition len (b : list byte) : nat := List.length b.

(** [str(n)] of a non-negative int: its decimal digits. *)
Definition str (n : nat) : string := NilZero.string_of_uint (Nat.to_uint n).

(** A bytes literal whose characters are all ASCII: one byte per character. *)
Definition b (s : string) : list byte := list_byte_of_string s.

(** The double-quote character, for literals that contain one. *)
Definition dq : string := String "034"%char EmptyString.

(** The line-feed character that separates the lines of a triple-quoted
    literal. *)
Definition LF : string := String "010"%char EmptyString.

(** The text of a triple-quoted literal, given line by line: the lines are
    separated by a line feed and the last one is not followed by one. *)
Definition triple_quoted (lines : list string) : string := String.concat LF lines.

(** [format % args] where every argument is already a [str]: each [%s] takes
    the next argument and [%%] gives a percent sign.  [None] stands for the
    [TypeError] raised when the arguments run out or are left over, and for the
    conversions this development does not need. *)
Fixpoint percent (format : string) (args : list string) : option string :=
  match format with
  | EmptyString => match args with [] => Some EmptyString | _ :: _ => None end
  | String "%"%char (String "s"%char rest) =>
      match args with
      | [] => None
      | a :: args' => option_map (String.append a) (percent rest args')
      end
  | String "%"%char (String "%"%char rest) =>
      option_map (String "%"%char) (percent rest args)
  | String "%"%char _ => None
  | String c rest => option_map (String c) (percent rest args)
  end.

End Py.

(** ** The request and the connection *)

(** What a handler object holds about the request it serves, together with the
    strings the base class derives from its version constants and from the
    clock when the handler asks for them. *)
Record request := {
  path : string;                  (* self.path *)
  requestline : string;           (* self.requestline *)
  request_version : string;       (* self.request_version *)
  version_string : string;        (* self.version_string() *)
  date_time_string : string;      (* self.date_time_string() *)
  log_date_time_string : string   (* self.log_date_time_string() *)
}.

(** What travels to the client, in the order it is written: the status line,
    header lines, the blank line that ends the headers, and chunks of body
    bytes. *)
Inductive wire :=
| status_line (code : nat)
| header_line (keyword value : string)
| blank_line
| data (bytes : list byte).

(** The two buffers of a handler: header lines wait in [headers_buffer] until
    [end_headers] flushes them to [wfile]. *)
Record connection := {
  headers_buffer : list wire;
  wfile : list wire
}.

Definition fresh : connection := {| headers_buffer := []; wfile := [] |}.

(** Standard output, as the list of lines printed so far. *)
Definition stdout := list string.

Definition print (line : string) (out : stdout) : stdout := out ++ [line].

(** The calls a handler method makes on [self]. *)
Inductive call :=
| send_response (code : nat)
| send_header (keyword value : string)
| end_headers
| wfile_write (bytes : list byte).

(** ** The base class

    [http.server.BaseHTTPRequestHandler]: what each call does to the
    connection and to standard output.  [log_message] is the method the
    subclass overrides.  A request line without a version, [GET /path], leaves
    [request_version] at [HTTP/0.9]; for such a request the base class sends
    neither status line nor headers. *)

Module BaseHTTPRequestHandler.
Section Methods.

Variable log_message : request -> string -> list string -> stdout -> option stdout.

Definition log_request (self : request) (code : nat) (out : stdout) : option stdout :=
  log_message self (Py.dq ++ "%s" ++ Py.dq ++ " %s %s")
              [requestline self; Py.str code; "-"] out.

(** [if self.request_version != 'HTTP/0.9':], the guard of the three methods
    that fill and flush the header buffer. *)
Definition sends_headers (self : request) : bool :=
  negb (request_version self =? "HTTP/0.9").

Definition send_response_only (self : request) (code : nat) (c : connection)
  : connection :=
  if sends_headers self then
    {| headers_buffer := headers_buffer c ++ [status_line code]; wfile := wfile c |}
  else c.

Definition send_header (self : request) (keyword value : string) (c : connection)
  : connection :=
  if sends_headers self then
    {| headers_buffer := headers_buffer c ++ [header_line keyword value];
       wfile := wfile c |}
  else c.

Definition flush_headers (c : connection) : connection :=
  {| headers_buffer := []; wfile := wfile c ++ headers_buffer c |}.

Definition end_headers (self : request) (c : connection) : connection :=
  if sends_headers self then
    flush_headers
      {| headers_buffer := headers_buffer c ++ [blank_line]; wfile := wfile c |}
  else c.

(** [send_response] logs the request, then buffers the status line and the
    [Server] and [Date] headers. *)
Definition send_response (self : request) (code : nat) (s : connection * stdout)
  : option (connection * stdout) :=
  match log_request self code (snd s) with
  | None => None
  | Some out =>
      Some (send_header self "Date" (date_time_string self)
              (send_header self "Server" (version_string self)
                 (send_response_only self code (fst s))),
            out)
  end.

Definition wfile_write (bytes : list byte) (c : connection) : connection :=
  {| headers_buffer := headers_buffer c; wfile := wfile c ++ [data bytes] |}.

End Methods.
End BaseHTTPRequestHandler.

(** ** The handler of the script *)

Module BinaryTestHandler.

(** [print(f"[{self.log_date_time_string()}] {format % args}")] *)
Definition log_message (self : request) (format : string) (args : list string)
  (out : stdout) : option stdout :=
  match Py.percent format args with
  | None => None
  | Some message =>
      Some (print ("[" ++ log_date_time_string self ++ "] " ++ message) out)
  end.

(** One call of a handler method, carried out by the base class with this
    class's [log_message]. *)
Definition exec (self : request) (c : call) (s : connection * stdout)
  : option (connection * stdout) :=
  match c with
  | send_response code =>
      BaseHTTPRequestHandler.send_response log_message self code s
  | send_header keyword value =>
      Some (BaseHTTPRequestHandler.send_header self keyword value (fst s), snd s)
  | end_headers => Some (BaseHTTPRequestHandler.end_headers self (fst s), snd s)
  | wfile_write bytes =>
      Some (BaseHTTPRequestHandler.wfile_write bytes (fst s), snd s)
  end.

(** A method body: its calls, one after the other; an exception ([None]) ends
    it. *)
Fixpoint run (self : request) (body : list call) (s : connection * stdout)
  : option (connection * stdout) :=
  match body with
  | [] => Some s
  | c :: rest =>
      match exec self c s with
      | None => None
      | Some s' => run self rest s'
      end
  end.

(** *** The literals of [do_GET] *)

Definition png_data : list byte := [
    x89; x50; x4e; x47; x0d; x0a; x1a; x0a;
    x00; x00; x00; x0d; x49; x48; x44; x52;
    x00; x00; x00; x01; x00; x00; x00; x01;
    x08; x02; x00; x00; x00; x90; x77; x53;
    xde; x00; x00; x00; x0c; x49; x44; x41;
    x54; x08; xd7; x63; xf8; xcf; xc0; x00;
    x00; x03; x01; x01; x00; x18; xdd; x8d;
    xb4; x00; x00; x00; x00; x49; x45; x4e;
    x44; xae; x42; x60; x82
  ].

Definition jpeg_data : list byte := [
    xff; xd8; xff; xe0; x00; x10; x4a; x46;
    x49; x46; x00; x01; x01; x00; x00; x01;
    x00; x01; x00; x00; xff; xdb; x00; x43;
    x00; x08; x06; x06; x07; x06; x05; x08;
    x07; x07; x07; x09; x09; x08; x0a; x0c;
    x14; x0d; x0c; x0b; x0b; x0c; x19; x12;
    x13; x0f; x14; x1d; x1a; x1f; x1e; x1d;
    x1a; x1c; x1c; x20; x24; x2e; x27; x20;
    x22; x2c; x23; x1c; x1c; x28; x37; x29;
    x2c; x30; x31; x34; x34; x34; x1f; x27;
    x39; x3d; x38; x32; x3c; x2e; x33; x34;
    x32; xff; xc0; x00; x0b; x08; x00; x01;
    x00; x01; x01; x01; x11; x00; xff; xc4;
    x00; x14; x00; x01; x00; x00; x00; x00;
    x00; x00; x00; x00; x00; x00; x00; x00;
    x00; x00; x00; x03; xff; xc4; x00; x14;
    x10; x01; x00; x00; x00; x00; x00; x00;
    x00; x00; x00; x00; x00; x00; x00; x00;
    x00; x00; xff; xda; x00; x08; x01; x01;
    x00; x00; x3f; x00; x3f; x00; xff; xd9
  ].

Definition pdf_data : list byte := Py.b (Py.triple_quoted [
    "%PDF-1.4";
    "1 0 obj<</Type/Catalog/Pages 2 0 R>>endobj";
    "2 0 obj<</Type/Pages/Count 1/Kids[3 0 R]>>endobj";
    "3 0 obj<</Type/Page/MediaBox[0 0 612 792]/Parent 2 0 R/Resources<<>>>>endobj";
    "xref";
    "0 4";
    "0000000000 65535 f";
    "0000000009 00000 n";
    "0000000052 00000 n";
    "0000000101 00000 n";
    "trailer<</Size 4/Root 1 0 R>>";
    "startxref";
    "185";
    "%%EOF"
  ]).

Definition zip_data : list byte := [
    x50; x4b; x05; x06; x00; x00; x00; x00;
    x00; x00; x00; x00; x00; x00; x00; x00;
    x00; x00; x00; x00; x00; x00
  ].

Definition html : list byte :=
  let dq := Py.dq in
  Py.b (Py.triple_quoted [
    "<!DOCTYPE html>";
    "<html>";
    "<head><title>Binary Test Server</title></head>";
    "<body>";
    "    <h1>Binary Content Test Server</h1>";
    "    <p>Test the following binary endpoints:</p>";
    "    <ul>";
    "        <li><a href=" ++ dq ++ "/image.png" ++ dq ++ ">PNG Image</a> (image/png)</li>";
    "        <li><a href=" ++ dq ++ "/image.jpg" ++ dq ++ ">JPEG Image</a> (image/jpeg)</li>";
    "        <li><a href=" ++ dq ++ "/document.pdf" ++ dq ++ ">PDF Document</a> (application/pdf)</li>";
    "        <li><a href=" ++ dq ++ "/archive.zip" ++ dq ++ ">ZIP Archive</a> (application/zip)</li>";
    "    </ul>";
    "    <p>Each endpoint will return a minimal valid binary file of that type.</p>";
    "</body>";
    "</html>"
  ]%string).

(** *** [do_GET] *)

Definition do_GET (self : request) : list call :=
  if path self =? "/image.png" then
    [ send_response 200;
      send_header "Content-Type" "image/png";
      send_header "Content-Length" (Py.str (Py.len png_data));
      end_headers;
      wfile_write png_data ]
  else if path self =? "/image.jpg" then
    [ send_response 200;
      send_header "Content-Type" "image/jpeg";
      send_header "Content-Length" (Py.str (Py.len jpeg_data));
      end_headers;
      wfile_write jpeg_data ]
  else if path self =? "/document.pdf" then
    [ send_response 200;
      send_header "Content-Type" "application/pdf";
      send_header "Content-Length" (Py.str (Py.len pdf_data));
      end_headers;
      wfile_write pdf_data ]
  else if path self =? "/archive.zip" then
    [ send_response 200;
      send_header "Content-Type" "application/zip";
      send_header "Content-Length" (Py.str (Py.len zip_data));
      end_headers;
      wfile_write zip_data ]
  else if path self =? "/" then
    [ send_response 200;
      send_header "Content-Type" "text/html; charset=utf-8";
      send_header "Content-Length" (Py.str (Py.len html));
      end_headers;
      wfile_write html ]
  else
    [ send_response 404;
      send_header "Content-Type" "text/plain";
      end_headers;
      wfile_write (Py.b "404 Not Found") ].

(** One GET request served on a fresh connection. *)
Definition handle (self : request) (out : stdout) : option (connection * stdout) :=
  run self (do_GET self) (fresh, out).

End BinaryTestHandler.

(** ** The response a client reads *)

Record response := {
  status : nat;
  headers : list (string * string);
  body : list byte
}.

(** After the blank line only body bytes may follow; the chunks written are
    read back as one sequence. *)
Fixpoint read_body (w : list wire) : option (list byte) :=
  match w with
  | [] => Some []
  | data bytes :: rest => option_map (app bytes) (read_body rest)
  | _ => None
  end.

Fixpoint read_headers (w : list wire) : option (list (string * string) * list byte) :=
  match w with
  | header_line keyword value :: rest =>
      match read_headers rest with
      | Some (hs, bytes) => Some ((keyword, value) :: hs, bytes)
      | None => None
      end
  | blank_line :: rest => option_map (pair []) (read_body rest)
  | _ => None
  end.

(** A well-formed response: status line, header lines, blank line, body. *)
Definition read_response (w : list wire) : option response :=
  match w with
  | status_line code :: rest =>
      match read_headers rest with
      | Some (hs, bytes) => Some {| status := code; headers := hs; body := bytes |}
      | None => None
      end
  | _ => None
  end.

(** Header names are compared without regard to case. *)
Definition lower_ascii (c : ascii) : ascii :=
  let n := nat_of_ascii c in
  if ((65 <=? n) && (n <=? 90))%nat then ascii_of_nat (n + 32) else c.

Fixpoint lower (s : string) : string :=
  match s with
  | EmptyString => EmptyString
  | String c rest => String (lower_ascii c) (lower rest)
  end.

Fixpoint get_header (name : string) (hs : list (string * string)) : option string :=
  match hs with
  | [] => None
  | (keyword, value) :: rest =>
      if lower keyword =? lower name then Some value else get_header name rest
  end.

(** What the client of one GET request receives, when the handler ends
    normally and what it wrote is a response with status line and headers.
    (A request without a version gets the body alone, which is none.) *)
Definition respond (self : request) (out : stdout) : option response :=
  match BinaryTestHandler.handle self out with
  | Some (c, _) => read_response (wfile c)
  | None => None
  end.

(** What the request adds to standard output. *)
Definition logged (self : request) (out : stdout) : option stdout :=
  option_map snd (BinaryTestHandler.handle self out).

(** The five paths [do_GET] compares [self.path] with. *)
Definition routes : list string :=
  ["/image.png"; "/image.jpg"; "/document.pdf"; "/archive.zip"; "/"].

(** The four binary endpoints, each with the content type and the literal of
    its branch. *)
Definition binary_routes : list (string * (string * list byte)) :=
  [ ("/image.png", ("image/png", BinaryTestHandler.png_data));
    ("/image.jpg", ("image/jpeg", BinaryTestHandler.jpeg_data));
    ("/document.pdf", ("application/pdf", BinaryTestHandler.pdf_data));
    ("/archive.zip", ("application/zip", BinaryTestHandler.zip_data)) ].

(** ** Occurrence of one sequence inside another *)

Definition occurs_in {A : Type} (needle hay : list A) : Prop :=
  exists pre post, hay = pre ++ needle ++ post.

Definition contains (hay needle : string) : Prop :=
  exists pre post, hay = (pre ++ needle ++ post)%string.

Fixpoint is_prefix (needle hay : list byte) : bool :=
  match needle, hay with
  | [], _ => true
  | _ :: _, [] => false
  | x :: needle', y :: hay' => Byte.eqb x y && is_prefix needle' hay'
  end.

Fixpoint search (needle hay : list byte) : bool :=
  is_prefix needle hay ||
  match hay with
  | [] => false
  | _ :: hay' => search needle hay'
  end.

(** ** The PNG container format

    What it takes for a byte sequence to be read as a PNG file of a given
    size: the eight signature bytes, then chunks of the form length (four
    bytes, big-endian), type (four bytes), data, CRC-32 of type and data; the
    first chunk is [IHDR] and its data starts with the width and the height. *)

Module PNG.

Definition signature : list byte := [x89; x50; x4e; x47; x0d; x0a; x1a; x0a].

Definition be32 (bytes : list byte) : N :=
  fold_left (fun acc x => (acc * 256 + Byte.to_N x)%N) bytes 0%N.

Record chunk := {
  chunk_type : list byte;
  chunk_data : list byte;
  chunk_crc : N
}.

Fixpoint chunks (fuel : nat) (bytes : list byte) : option (list chunk) :=
  match bytes, fuel with
  | [], _ => Some []
  | _ :: _, O => None
  | _ :: _, S fuel' =>
      let n := N.to_nat (be32 (firstn 4 bytes)) in
      if (List.length bytes <? 12 + n)%nat then None
      else
        option_map
          (cons {| chunk_type := firstn 4 (skipn 4 bytes);
                   chunk_data := firstn n (skipn 8 bytes);
                   chunk_crc := be32 (firstn 4 (skipn (8 + n) bytes)) |})
          (chunks fuel' (skipn (12 + n) bytes))
  end.

(** CRC-32 as PNG uses it: reflected polynomial [0xEDB88320], all ones at the
    start and complemented at the end. *)
Definition crc_bit (crc : N) : N :=
  if N.odd crc then N.lxor (N.shiftr crc 1) 0xEDB88320%N else N.shiftr crc 1.

Definition crc_byte (crc : N) (x : byte) : N :=
  Nat.iter 8 crc_bit (N.lxor crc (Byte.to_N x)).

Definition crc32 (bytes : list byte) : N :=
  N.lxor (fold_left crc_byte bytes 0xFFFFFFFF%N) 0xFFFFFFFF%N.

Definition chunk_ok (c : chunk) : bool :=
  (crc32 (chunk_type c ++ chunk_data c) =? chunk_crc c)%N.

Definition IHDR : list byte := Py.b "IHDR".
Definition IDAT : list byte := Py.b "IDAT".
Definition IEND : list byte := Py.b "IEND".

(** Width and height, as the [IHDR] chunk that must come first declares
    them. *)
Definition declared_size (cs : list chunk) : option (N * N) :=
  match cs with
  | c :: _ =>
      if is_prefix IHDR (chunk_type c) && (List.length (chunk_data c) =? 13)%nat
      then Some (be32 (firstn 4 (chunk_data c)),
                 be32 (firstn 4 (skipn 4 (chunk_data c))))
      else None
  | [] => None
  end.

(** The chunks of a file, when it starts with the signature and every chunk
    carries the CRC of its contents. *)
Definition parse (file : list byte) : option (list chunk) :=
  if is_prefix signature file then
    match chunks (List.length file) (skipn 8 file) with
    | Some cs => if forallb chunk_ok cs then Some cs else None
    | None => None
    end
  else None.

(** The size of the image a file encodes. *)
Definition dimensions (file : list byte) : option (N * N) :=
  match parse file with
  | Some cs => declared_size cs
  | None => None
  end.

End PNG.

(** ** Several requests in flight

    [HTTPServer] takes one connection after the other, and nothing in the
    script starts a thread.  The model below is more liberal: every request has
    a handler object and a connection of its own, standard output is shared,
    and a schedule picks whose next call runs. *)

Module Server.

Record job := {
  self : request;
  pending : list call;
  conn : connection
}.

Definition start (rq : request) : job :=
  {| self := rq; pending := BinaryTestHandler.do_GET rq; conn := fresh |}.

(** The next call of one handler; a handler that has returned stays as it
    is. *)
Definition step_job (j : job) (out : stdout) : option (job * stdout) :=
  match pending j with
  | [] => Some (j, out)
  | c :: rest =>
      match BinaryTestHandler.exec (self j) c (conn j, out) with
      | Some (k, out') => Some ({| self := self j; pending := rest; conn := k |}, out')
      | None => None
      end
  end.

Fixpoint step_at (i : nat) (js : list job) (out : stdout)
  : option (list job * stdout) :=
  match js, i with
  | [], _ => None
  | j :: rest, O =>
      match step_job j out with
      | Some (j', out') => Some (j' :: rest, out')
      | None => None
      end
  | j :: rest, S i' =>
      match step_at i' rest out with
      | Some (rest', out') => Some (j :: rest', out')
      | None => None
      end
  end.

Fixpoint schedule (order : list nat) (s : list job * stdout)
  : option (list job * stdout) :=
  match order with
  | [] => Some s
  | i :: order' =>
      match step_at i (fst s) (snd s) with
      | Some s' => schedule order' s'
      | None => None
      end
  end.

Definition finished (j : job) : Prop := pending j = [].

(** What the client of a job has received so far. *)
Definition received (j : job) : option response := read_response (wfile (conn j)).

(** What a call does to the connection it is made on, standard output left
    aside. *)
Definition on_connection (rq : request) (c : call) (k : connection) : connection :=
  match c with
  | send_response code =>
      BaseHTTPRequestHandler.send_header rq "Date" (date_time_string rq)
        (BaseHTTPRequestHandler.send_header rq "Server" (version_string rq)
           (BaseHTTPRequestHandler.send_response_only rq code k))
  | send_header keyword value =>
      BaseHTTPRequestHandler.send_header rq keyword value k
  | end_headers => BaseHTTPRequestHandler.end_headers rq k
  | wfile_write bytes => BaseHTTPRequestHandler.wfile_write bytes k
  end.

Definition all_on_connection (rq : request) (calls : list call) (k : connection)
  : connection :=
  fold_left (fun k c => on_connection rq c k) calls k.

(** A job is on course for a request when finishing its pending calls leaves
    the connection as the handler does when it serves that request alone. *)
Definition on_course (j : job) (rq : request) : Prop :=
  self j = rq /\
  all_on_connection rq (pending j) (conn j) = all_on_connection rq (BinaryTestHandler.do_GET rq) fresh.

End Server.

(** ** Shapes used in the statements below *)

Import BinaryTestHandler.

(** The shape shared by the five branches that answer 200. *)
Definition ok_branch (mime : string) (payload : list byte) : list call :=
  [ send_response 200;
    send_header "Content-Type" mime;
    send_header "Content-Length" (Py.str (Py.len payload));
    end_headers;
    wfile_write payload ].

Definition not_found_branch : list call :=
  [ send_response 404;
    send_header "Content-Type" "text/plain";
    end_headers;
    wfile_write (Py.b "404 Not Found") ].

(** The line [log_request] makes [log_message] print. *)
Definition access_line (self : request) (code : nat) : string :=
  ("[" ++ log_date_time_string self ++ "] " ++
   Py.dq ++ requestline self ++ Py.dq ++ " " ++ Py.str code ++ " -")%string.

(** A response with the two headers [send_response] always adds. *)
Definition reply (self : request) (code : nat) (extra : list (string * string))
  (payload : list byte) : response :=
  {| status := code;
     headers := ("Server", version_string self)
                :: ("Date", date_time_string self) :: extra;
     body := payload |}.

Definition serves (self : request) (out : stdout) (code : nat)
  (extra : list (string * string)) (payload : list byte) : Prop :=
  respond self out = Some (reply self code extra payload) /\
  logged self out = Some (out ++ [access_line self code]).

(** What a client holds is the response of its own request: the one the
    request gets when served alone on a fresh connection, which for a binary
    endpoint carries that endpoint's content type and literal. *)
Definition own_response (got : option response) (rq : request) : Prop :=
  exists r,
    got = Some r /\
    respond rq [] = Some r /\
    forall mime payload,
      In (path rq, (mime, payload)) binary_routes ->
      get_header "Content-Type" (headers r) = Some mime /\ body r = payload.

(** A request as a client could send it, for the examples below. *)
Definition example_request (p : string) : request :=
  {| path := p;
     requestline := "GET " ++ p ++ " HTTP/1.1";
     request_version := "HTTP/1.1";
     version_string := "BaseHTTP/0.6 Python/3.12.0";
     date_time_string := "Wed, 04 Nov 2026 10:00:00 GMT";
     log_date_time_string := "04/Nov/2026 10:00:00" |}.

(** The [IDAT] chunk of [png_data], as the literal has it. *)
Definition png_idat : PNG.chunk :=
  {| PNG.chunk_type := PNG.IDAT;
     PNG.chunk_data := [x08; xd7; x63; xf8; xcf; xc0; x00; x00; x03; x01; x01; x00];
     PNG.chunk_crc := 0x18DD8DB4%N |}.

(** ** Reading what the script writes *)

(** The number a decimal header value denotes, as a client reads it: digits
    only, at least one. *)
Definition decimal_value (s : string) : option nat :=
  option_map Nat.of_uint (NilZero.uint_of_string s).

(** The lines of a text: the pieces between line feeds. *)
Fixpoint text_lines (text : string) : list string :=
  match text with
  | EmptyString => [EmptyString]
  | String c rest =>
      if Ascii.eqb c "010"%char then EmptyString :: text_lines rest
      else
        match text_lines rest with
        | l :: ls => String c l :: ls
        | [] => [String c EmptyString]
        end
  end.


(** The status [do_GET] answers a path with. *)
Definition status_for (p : string) : nat :=
  if existsb (String.eqb p) routes then 200 else 404.

(** ** The script run as a program

    The block under [if __name__ == '__main__']: the banner, then
    [serve_forever] until the keyboard interrupt, then the farewell. *)

Module Main.

#[warnings="-abstract-large-number"]
Definition port : nat := 8000.

(** The eight [print] calls before [serve_forever], [port] formatted into the
    f-strings. *)
Definition banner : list string :=
  let port := Py.str port in
  [ "Binary test server running on http://localhost:" ++ port;
    "Available endpoints:";
    "  http://localhost:" ++ port ++ "/         - Index page";
    "  http://localhost:" ++ port ++ "/image.png - PNG image";
    "  http://localhost:" ++ port ++ "/image.jpg - JPEG image";
    "  http://localhost:" ++ port ++ "/document.pdf - PDF document";
    "  http://localhost:" ++ port ++ "/archive.zip - ZIP archive";
    Py.LF ++ "Press Ctrl+C to stop" ]%string.




(** The path of the URL a banner line shows, if it shows one: what follows
    [http://localhost:8000] up to the next space. *)
Definition url_prefix : string := ("  http://localhost:" ++ Py.str port)%string.

Definition advertised_path (line : string) : option string :=
  if String.prefix url_prefix line then
    let rest := substring (String.length url_prefix) (String.length line) line in
    match index 0 " " rest with
    | Some i => Some (substring 0 i rest)
    | None => Some rest
    end
  else None.

Definition advertised : list string :=
  flat_map (fun line => match advertised_path line with
                        | Some p => [p]
                        | None => []
                        end) banner.


End Main.

(** ** The links of the index page *)

Module Index.

(** The text between the first [opening] and the next [closing], and what
    follows that [closing]. *)
Definition between (opening closing s : string) : option (string * string) :=
  match index 0 opening s with
  | Some i =>
      let s1 := substring (i + String.length opening) (String.length s) s in
      match index 0 closing s1 with
      | Some j =>
          Some (substring 0 j s1,
                substring (j + String.length closing) (String.length s1) s1)
      | None => None
      end
  | None => None
  end.

(** Every anchor of a page, with the text in parentheses that follows it:
    [<a href="TARGET">...</a> (ANNOUNCED)]. *)
Fixpoint links (fuel : nat) (page : string) : list (string * string) :=
  match fuel with
  | O => []
  | S fuel' =>
      match between ("href=" ++ Py.dq) Py.dq page with
      | Some (target, rest) =>
          match between "</a> (" ")" rest with
          | Some (announced, rest') => (target, announced) :: links fuel' rest'
          | None => [(target, EmptyString)]
          end
      | None => []
      end
  end.

Definition page_links (page : list byte) : list (string * string) :=
  links (List.length page) (string_of_list_byte page).

End Index.

(** ** The ZIP end-of-central-directory record *)

Module ZIP.

Definition le (bytes : list byte) : N :=
  fold_right (fun x acc => (Byte.to_N x + 256 * acc)%N) 0%N bytes.

Definition field (offset size : nat) (file : list byte) : N :=
  le (firstn size (skipn offset file)).

Record end_of_central_directory := {
  disk : N;
  directory_disk : N;
  entries_on_disk : N;
  entries : N;
  directory_size : N;
  directory_offset : N;
  comment : list byte
}.

(** A file that is nothing but the record: the signature, the fixed fields
    (little-endian), and a comment of the length the last field gives. *)
Definition read_record (file : list byte) : option end_of_central_directory :=
  if is_prefix [x50; x4b; x05; x06] file
     && (22 <=? List.length file)%nat
     && (List.length file =? 22 + N.to_nat (field 20 2 file))%nat
  then Some {| disk := field 4 2 file;
               directory_disk := field 6 2 file;
               entries_on_disk := field 8 2 file;
               entries := field 10 2 file;
               directory_size := field 12 4 file;
               directory_offset := field 16 4 file;
               comment := skipn 22 file |}
  else None.

End ZIP.

(** ** JPEG marker segments *)

Module JPEG.

Record segment := {
  marker : byte;
  content : list byte
}.

Definition be (bytes : list byte) : N :=
  fold_left (fun acc x => (acc * 256 + Byte.to_N x)%N) bytes 0%N.

(** The marker segments up to the start-of-scan segment ([FF DA]), each
    [FF], marker, two length bytes (big-endian, counting themselves), content;
    and the bytes that follow the start-of-scan segment. *)
Fixpoint segments (fuel : nat) (bytes : list byte)
  : option (list segment * list byte) :=
  match fuel, bytes with
  | S fuel', xff :: m :: rest =>
      let n := N.to_nat (be (firstn 2 rest)) in
      if (n <? 2)%nat || (List.length rest <? n)%nat then None
      else
        let seg := {| marker := m; content := firstn (n - 2) (skipn 2 rest) |} in
        if Byte.eqb m xda then Some ([seg], skipn n rest)
        else
          match segments fuel' (skipn n rest) with
          | Some (segs, tail) => Some (seg :: segs, tail)
          | None => None
          end
  | _, _ => None
  end.

(** A file: start of image ([FF D8]), segments, entropy-coded data, end of
    image ([FF D9]). *)
Definition read (file : list byte) : option (list segment * list byte) :=
  if is_prefix [xff; xd8] file then
    match segments (List.length file) (skipn 2 file) with
    | Some (segs, tail) =>
        let n := List.length tail in
        if is_prefix [xff; xd9] (skipn (n - 2) tail) && (2 <=? n)%nat
        then Some (segs, firstn (n - 2) tail)
        else None
    | None => None
    end
  else None.

(** Sample precision, height, width and number of components, as a baseline
    frame header ([FF C0]) declares them. *)
Definition frame (segs : list segment) : option (N * N * N * N) :=
  match find (fun s => Byte.eqb (marker s) xc0) segs with
  | Some s =>
      let c := content s in
      if (6 <=? List.length c)%nat
      then Some (be (firstn 1 c), be (firstn 2 (skipn 1 c)),
                 be (firstn 2 (skipn 3 c)), be (firstn 1 (skipn 5 c)))
      else None
  | None => None
  end.

End JPEG.

(** ** The cross-reference table of a PDF file *)

Module PDF.

(** The offset of the first line that starts with [start]. *)
Definition line_offset (start file : string) : option nat :=
  if String.prefix start file then Some 0
  else option_map S (index 0 (Py.LF ++ start) file).

(** The offset an in-use entry of the table records: ten digits, a space, five
    digits, a space, [n]. *)
Definition entry_offset (line : string) : option nat :=
  if (String.length line =? 18)%nat && (substring 10 1 line =? " ")%string
     && (substring 16 2 line =? " n")%string
  then decimal_value (substring 0 10 line)
  else None.

Definition table (file : string) : list nat :=
  flat_map (fun line => match entry_offset line with
                        | Some n => [n]
                        | None => []
                        end) (text_lines file).

(** The number on the line after [startxref]. *)
Fixpoint after (key : string) (ls : list string) : option string :=
  match ls with
  | l :: rest =>
      if (l =? key)%string then hd_error rest else after key rest
  | [] => None
  end.

Definition startxref (file : string) : option nat :=
  match after "startxref" (text_lines file) with
  | Some l => decimal_value l
  | None => None
  end.

End PDF.

(** ** What reaches the connection *)

(** What a branch of [do_GET] leaves in [wfile]: for a request with a version,
    the status line, the two headers of [send_response], the headers of the
    branch, the blank line and the body; for an [HTTP/0.9] request, the body
    alone. *)
Definition written (self : request) (code : nat) (extra : list (string * string))
  (payload : list byte) : list wire :=
  if BaseHTTPRequestHandler.sends_headers self then
    status_line code
    :: header_line "Server" (version_string self)
    :: header_line "Date" (date_time_string self)
    :: map (fun h => header_line (fst h) (snd h)) extra
    ++ [blank_line; data payload]
  else [data payload].

(** The Content-Length a client expects of each binary endpoint, as a
    numeral. *)
Definition content_lengths : list (string * string) :=
  [ ("/image.png", "69"); ("/image.jpg", "160");
    ("/document.pdf", "312"); ("/archive.zip", "22") ]%string.

(** ** The usage text *)

Module Usage.

(** The module docstring. *)
Definition doc : string :=
  Py.triple_quoted [
    "";
    "Simple HTTP server for testing binary content with localtunnel.";
    "";
    "Usage:";
    "    python3 test-binary-server.py";
    "";
    "This will start a server on port 8000 serving:";
    "- /image.png - A test PNG image";
    "- /document.pdf - A test PDF document";
    "- /video.mp4 - A test MP4 video";
    "- /archive.zip - A test ZIP archive";
    ""
  ]%string.

(** The path a line of the list announces: what stands between the dash and
    the next space. *)
Definition documented_path (line : string) : option string :=
  if String.prefix "- /" line then
    let rest := substring 2 (String.length line) line in
    match index 0 " " rest with
    | Some i => Some (substring 0 i rest)
    | None => Some rest
    end
  else None.

Definition documented : list string :=
  flat_map (fun line => match documented_path line with
                        | Some p => [p]
                        | None => []
                        end) (text_lines doc).

End Usage.

(** ** What handlers print *)

(** The lines a call prints: only [send_response] prints, through
    [log_request]. *)
Definition call_log (rq : request) (c : call) : list string :=
  match c with
  | send_response code => [access_line rq code]
  | _ => []
  end.

(** What the calls a job has not made yet are going to print. *)
Definition still_to_print (j : Server.job) : list string :=
  flat_map (call_log (Server.self j)) (Server.pending j).

(** * Properties *)

(** ** Strings and searching *)

Lemma append_assoc (a b c : string) : ((a ++ b) ++ c = a ++ (b ++ c))%string.
Proof.
  induction a as [|x a IH]; simpl; [reflexivity | now rewrite IH].
Qed.

Lemma is_prefix_sound (needle hay : list byte) :
  is_prefix needle hay = true -> exists post, hay = needle ++ post.
Proof.
  revert hay; induction needle as [|x needle IH]; intros hay H.
  - now exists hay.
  - destruct hay as [|y hay]; simpl in H; [discriminate|].
    apply andb_true_iff in H as [Hxy Hrest].
    apply Byte.byte_dec_bl in Hxy; subst y.
    destruct (IH _ Hrest) as [post ->].
    now exists post.
Qed.

Lemma search_sound (needle hay : list byte) :
  search needle hay = true -> occurs_in needle hay.
Proof.
  induction hay as [|y hay IH]; simpl; intros H.
  - rewrite orb_false_r in H.
    destruct (is_prefix_sound _ _ H) as [post ->].
    now exists [], post.
  - apply orb_true_iff in H as [H|H].
    + destruct (is_prefix_sound _ _ H) as [post ->].
      now exists [], post.
    + destruct (IH H) as (pre & post & ->).
      now exists (y :: pre), post.
Qed.

(** The check value of CRC-32. *)
Example crc32_check_value : PNG.crc32 (Py.b "123456789") = 0xCBF43926%N.
Proof. vm_compute; reflexivity. Qed.

(** ** The request log *)

Lemma percent_log_request (line code : string) :
  Py.percent (Py.dq ++ "%s" ++ Py.dq ++ " %s %s") [line; code; "-"]
  = Some (Py.dq ++ line ++ Py.dq ++ " " ++ code ++ " -")%string.
Proof.
  reflexivity.
Qed.

Lemma log_request_prints (self : request) (code : nat) (out : stdout) :
  BaseHTTPRequestHandler.log_request BinaryTestHandler.log_message self code out
  = Some (out ++ [access_line self code]).
Proof.
  unfold BaseHTTPRequestHandler.log_request, BinaryTestHandler.log_message.
  now rewrite percent_log_request.
Qed.

Lemma access_line_contains (self : request) (code : nat) :
  contains (access_line self code) (log_date_time_string self) /\
  contains (access_line self code) (requestline self).
Proof.
  unfold access_line, contains; split.
  - now exists "["%string, ("] " ++ Py.dq ++ requestline self ++ Py.dq ++ " " ++
                           Py.str code ++ " -")%string.
  - exists ("[" ++ log_date_time_string self ++ "] " ++ Py.dq)%string,
           (Py.dq ++ " " ++ Py.str code ++ " -")%string.
    now rewrite !append_assoc.
Qed.

(** ** The branches of [do_GET] *)

Lemma do_GET_cases (self : request) :
  (path self = "/image.png" /\ do_GET self = ok_branch "image/png" png_data) \/
  (path self = "/image.jpg" /\ do_GET self = ok_branch "image/jpeg" jpeg_data) \/
  (path self = "/document.pdf" /\ do_GET self = ok_branch "application/pdf" pdf_data) \/
  (path self = "/archive.zip" /\ do_GET self = ok_branch "application/zip" zip_data) \/
  (path self = "/" /\ do_GET self = ok_branch "text/html; charset=utf-8" html) \/
  (~ In (path self) routes /\ do_GET self = not_found_branch).
Proof.
  unfold do_GET.
  destruct (path self =? "/image.png") eqn:Epng;
    [apply String.eqb_eq in Epng; now left | right].
  destruct (path self =? "/image.jpg") eqn:Ejpg;
    [apply String.eqb_eq in Ejpg; now left | right].
  destruct (path self =? "/document.pdf") eqn:Epdf;
    [apply String.eqb_eq in Epdf; now left | right].
  destruct (path self =? "/archive.zip") eqn:Ezip;
    [apply String.eqb_eq in Ezip; now left | right].
  destruct (path self =? "/") eqn:Eroot;
    [apply String.eqb_eq in Eroot; now left | right].
  apply String.eqb_neq in Epng, Ejpg, Epdf, Ezip, Eroot.
  split; [|reflexivity].
  simpl; intros [H|[H|[H|[H|[H|[]]]]]]; congruence.
Qed.

(** A request that carries a version gets status line and headers. *)
Lemma with_version (self : request) :
  request_version self <> "HTTP/0.9"%string ->
  BaseHTTPRequestHandler.sends_headers self = true.
Proof.
  intros V; unfold BaseHTTPRequestHandler.sends_headers.
  apply String.eqb_neq in V; now rewrite V.
Qed.

Lemma handle_ok_branch (self : request) (out : stdout) mime payload :
  do_GET self = ok_branch mime payload ->
  handle self out =
  Some ({| headers_buffer := [];
           wfile := written self 200
                      [ ("Content-Type"%string, mime);
                        ("Content-Length"%string, Py.str (Py.len payload)) ]
                      payload |},
        out ++ [access_line self 200]).
Proof.
  intros E; unfold handle; rewrite E.
  unfold ok_branch, run, exec, BaseHTTPRequestHandler.send_response.
  rewrite log_request_prints.
  unfold written, BaseHTTPRequestHandler.send_header,
    BaseHTTPRequestHandler.send_response_only, BaseHTTPRequestHandler.end_headers,
    BaseHTTPRequestHandler.wfile_write.
  destruct (BaseHTTPRequestHandler.sends_headers self); reflexivity.
Qed.

Lemma handle_not_found_branch (self : request) (out : stdout) :
  do_GET self = not_found_branch ->
  handle self out =
  Some ({| headers_buffer := [];
           wfile := written self 404 [("Content-Type", "text/plain")%string]
                      (Py.b "404 Not Found") |},
        out ++ [access_line self 404]).
Proof.
  intros E; unfold handle; rewrite E.
  unfold not_found_branch, run, exec, BaseHTTPRequestHandler.send_response.
  rewrite log_request_prints.
  unfold written, BaseHTTPRequestHandler.send_header,
    BaseHTTPRequestHandler.send_response_only, BaseHTTPRequestHandler.end_headers,
    BaseHTTPRequestHandler.wfile_write.
  destruct (BaseHTTPRequestHandler.sends_headers self); reflexivity.
Qed.

Lemma serves_ok_branch (self : request) (out : stdout) mime payload :
  request_version self <> "HTTP/0.9"%string ->
  do_GET self = ok_branch mime payload ->
  serves self out 200
    [("Content-Type", mime); ("Content-Length", Py.str (Py.len payload))] payload.
Proof.
  intros V E; unfold serves, respond, logged.
  rewrite (handle_ok_branch _ _ _ _ E); unfold written.
  rewrite (with_version _ V); simpl.
  now rewrite app_nil_r.
Qed.

Lemma serves_not_found_branch (self : request) (out : stdout) :
  request_version self <> "HTTP/0.9"%string ->
  do_GET self = not_found_branch ->
  serves self out 404 [("Content-Type", "text/plain"%string)] (Py.b "404 Not Found").
Proof.
  intros V E; unfold serves, respond, logged.
  rewrite (handle_not_found_branch _ _ E); unfold written.
  now rewrite (with_version _ V).
Qed.

(** What any request prints, with or without a version. *)
Lemma logged_line (self : request) (out : stdout) :
  exists code,
    logged self out = Some (out ++ [access_line self code]) /\
    ((In (path self) routes /\ code = 200) \/ (~ In (path self) routes /\ code = 404)).
Proof.
  unfold logged.
  destruct (do_GET_cases self) as [[E B]|[[E B]|[[E B]|[[E B]|[[E B]|[E B]]]]]].
  1-5: rewrite (handle_ok_branch _ out _ _ B); exists 200;
       split; [reflexivity | left; split; [rewrite E; simpl; tauto | reflexivity]].
  rewrite (handle_not_found_branch _ out B); exists 404.
  split; [reflexivity | right; now split].
Qed.

Lemma do_GET_path (a b : request) : path a = path b -> do_GET a = do_GET b.
Proof.
  intros E; unfold do_GET; now rewrite E.
Qed.

Lemma do_GET_binary (self : request) mime payload :
  In (path self, (mime, payload)) binary_routes ->
  do_GET self = ok_branch mime payload.
Proof.
  unfold binary_routes; simpl.
  intros [H|[H|[H|[H|[]]]]]; injection H as Hp <- <-;
    unfold do_GET; rewrite <- Hp; reflexivity.
Qed.

Lemma decimal_value_str (n : nat) : decimal_value (Py.str n) = Some n.
Proof.
  unfold decimal_value, Py.str.
  rewrite NilZero.usu.
  - simpl; now rewrite DecimalNat.Unsigned.of_to.
  - rewrite <- (DecimalNat.Unsigned.of_to n) at 1.
    rewrite DecimalNat.Unsigned.to_of.
    apply DecimalFacts.unorm_nonnil.
Qed.

(** ** The binary endpoints *)

(** C1: a GET request (one that carries a version, so that status line and
    headers are sent) whose path is one of /image.png, /image.jpg,
    /document.pdf, /archive.zip is answered with status 200, the content type
    of that endpoint, a Content-Length whose value is a decimal numeral (69,
    160, 312, 22 respectively) denoting the length of the body sent, and a
    body that is the stored literal, byte for byte. *)
Theorem binary_endpoint_response (self : request) (out : stdout)
  (mime : string) (payload : list byte) :
  request_version self <> "HTTP/0.9"%string ->
  In (path self, (mime, payload)) binary_routes ->
  exists r value,
    respond self out = Some r /\
    status r = 200 /\
    get_header "Content-Type" (headers r) = Some mime /\
    get_header "Content-Length" (headers r) = Some value /\
    decimal_value value = Some (List.length (body r)) /\
    In (path self, value) content_lengths /\
    body r = payload.
Proof.
  intros V H.
  destruct (serves_ok_branch self out _ _ V (do_GET_binary _ _ _ H)) as [R _].
  do 2 eexists; split; [exact R|].
  split; [reflexivity|]; split; [reflexivity|]; split; [reflexivity|].
  split; [apply decimal_value_str|]; split; [|reflexivity].
  unfold binary_routes in H; simpl in H.
  destruct H as [H|[H|[H|[H|[]]]]]; injection H as <- _ <-;
    unfold content_lengths; simpl; auto.
Qed.

Lemma binary_endpoint_response_witness :
  exists r value,
    respond (example_request "/document.pdf") [] = Some r /\
    status r = 200 /\
    get_header "Content-Type" (headers r) = Some "application/pdf"%string /\
    get_header "Content-Length" (headers r) = Some value /\
    decimal_value value = Some (List.length (body r)) /\
    In (path (example_request "/document.pdf"), value) content_lengths /\
    body r = pdf_data.
Proof.
  apply (binary_endpoint_response (example_request "/document.pdf") []
           "application/pdf" pdf_data).
  - discriminate.
  - simpl; auto.
Defined.

(** ** Unmapped paths *)

(** C2: a GET request (one that carries a version) whose path is none of the
    five compared literals is answered with status 404, Content-Type
    text/plain and the 13 bytes [404 Not Found] as body. *)
Theorem unmapped_path_response (self : request) (out : stdout) :
  request_version self <> "HTTP/0.9"%string ->
  ~ In (path self) routes ->
  exists r,
    respond self out = Some r /\
    status r = 404 /\
    get_header "Content-Type" (headers r) = Some "text/plain"%string /\
    body r = [x34; x30; x34; x20; x4e; x6f; x74; x20; x46; x6f; x75; x6e; x64] /\
    string_of_list_byte (body r) = "404 Not Found"%string /\
    List.length (body r) = 13.
Proof.
  intros V Hout.
  destruct (do_GET_cases self) as [[E _]|[[E _]|[[E _]|[[E _]|[[E _]|[_ E]]]]]];
    try (exfalso; apply Hout; rewrite E; simpl; tauto).
  destruct (serves_not_found_branch self out V E) as [R _].
  eexists; split; [exact R|].
  repeat split; reflexivity.
Qed.

Lemma unmapped_path_response_witness :
  exists r,
    respond (example_request "/nonexistent") [] = Some r /\
    status r = 404 /\
    get_header "Content-Type" (headers r) = Some "text/plain"%string /\
    body r = [x34; x30; x34; x20; x4e; x6f; x74; x20; x46; x6f; x75; x6e; x64] /\
    string_of_list_byte (body r) = "404 Not Found"%string /\
    List.length (body r) = 13.
Proof.
  apply (unmapped_path_response (example_request "/nonexistent") []).
  - discriminate.
  - simpl; intros [H|[H|[H|[H|[H|[]]]]]]; discriminate H.
Defined.

(** ** Determinism *)

(** C3: two GET requests with the same path (each carrying a version) receive
    the same body (and the same status), whatever else differs between them:
    the request line, the version, the clock, the server version, what was
    printed before. *)
Theorem same_path_same_body (self1 self2 : request) (out1 out2 : stdout) :
  request_version self1 <> "HTTP/0.9"%string ->
  request_version self2 <> "HTTP/0.9"%string ->
  path self1 = path self2 ->
  exists r1 r2,
    respond self1 out1 = Some r1 /\
    respond self2 out2 = Some r2 /\
    body r1 = body r2 /\
    status r1 = status r2.
Proof.
  intros V1 V2 E.
  pose proof (do_GET_path _ _ E) as D.
  destruct (do_GET_cases self1) as [[_ B]|[[_ B]|[[_ B]|[[_ B]|[[_ B]|[_ B]]]]]];
    rewrite B in D; symmetry in D;
    first [ destruct (serves_ok_branch self1 out1 _ _ V1 B) as [R1 _];
            destruct (serves_ok_branch self2 out2 _ _ V2 D) as [R2 _]
          | destruct (serves_not_found_branch self1 out1 V1 B) as [R1 _];
            destruct (serves_not_found_branch self2 out2 V2 D) as [R2 _] ];
    do 2 eexists; (split; [exact R1|]); (split; [exact R2|]); split; reflexivity.
Qed.

Lemma same_path_same_body_witness :
  exists r1 r2,
    respond (example_request "/image.jpg") [] = Some r1 /\
    respond {| path := "/image.jpg";
               requestline := "GET /image.jpg HTTP/1.0";
               request_version := "HTTP/1.0";
               version_string := "BaseHTTP/0.6 Python/3.9.2";
               date_time_string := "Thu, 05 Nov 2026 23:59:59 GMT";
               log_date_time_string := "05/Nov/2026 23:59:59" |}
            ["[05/Nov/2026 23:59:58] earlier line"%string] = Some r2 /\
    body r1 = body r2 /\
    status r1 = status r2.
Proof.
  apply same_path_same_body.
  - discriminate.
  - discriminate.
  - reflexivity.
Defined.

(** ** The ZIP and PNG bodies *)

(** C4: the body answered to GET /archive.zip (a request that carries a
    version) is 22 bytes long and starts with the end-of-central-directory
    signature 50 4B 05 06. *)
Theorem zip_body (self : request) (out : stdout) :
  request_version self <> "HTTP/0.9"%string ->
  path self = "/archive.zip"%string ->
  exists r,
    respond self out = Some r /\
    List.length (body r) = 22 /\
    firstn 4 (body r) = [x50; x4b; x05; x06].
Proof.
  intros V E.
  assert (B : do_GET self = ok_branch "application/zip" zip_data)
    by (unfold do_GET; rewrite E; reflexivity).
  destruct (serves_ok_branch self out _ _ V B) as [R _].
  eexists; split; [exact R|].
  split; reflexivity.
Qed.

Lemma zip_body_witness :
  exists r,
    respond (example_request "/archive.zip") [] = Some r /\
    List.length (body r) = 22 /\
    firstn 4 (body r) = [x50; x4b; x05; x06].
Proof.
  apply zip_body.
  - discriminate.
  - reflexivity.
Defined.

(** The body answered to GET /image.png is the literal [png_data]. *)
Lemma png_response (self : request) (out : stdout) :
  request_version self <> "HTTP/0.9"%string ->
  path self = "/image.png"%string ->
  exists r, respond self out = Some r /\ body r = png_data.
Proof.
  intros V E.
  assert (B : do_GET self = ok_branch "image/png" png_data)
    by (unfold do_GET; rewrite E; reflexivity).
  destruct (serves_ok_branch self out _ _ V B) as [R _].
  eexists; split; [exact R | reflexivity].
Qed.

(** C5: the body answered to GET /image.png (a request that carries a
    version) is 69 bytes long and starts with the eight signature bytes; it
    splits into the chunks IHDR, IDAT and IEND, and IHDR declares a 1x1 image.  The CRC stored with IDAT, [0x18DD8DB4], is
    not the CRC-32 of that chunk, [0x18DD8DB0], so the body does not read as a
    PNG file and encodes no image. *)
Theorem png_body (self : request) (out : stdout) :
  request_version self <> "HTTP/0.9"%string ->
  path self = "/image.png"%string ->
  exists r,
    respond self out = Some r /\
    List.length (body r) = 69 /\
    firstn 8 (body r) = PNG.signature /\
    (exists ihdr iend,
        PNG.chunks 69 (skipn 8 (body r)) = Some [ihdr; png_idat; iend] /\
        PNG.chunk_type ihdr = PNG.IHDR /\
        PNG.chunk_type iend = PNG.IEND /\
        PNG.declared_size [ihdr; png_idat; iend] = Some (1, 1)%N /\
        PNG.chunk_ok ihdr = true /\
        PNG.chunk_ok iend = true) /\
    PNG.crc32 (PNG.chunk_type png_idat ++ PNG.chunk_data png_idat) = 0x18DD8DB0%N /\
    PNG.chunk_ok png_idat = false /\
    PNG.dimensions (body r) = None.
Proof.
  intros V E.
  destruct (png_response self out V E) as (r & R & Hb).
  exists r; rewrite Hb; split; [exact R|].
  split; [reflexivity|].
  split; [reflexivity|].
  split; [|repeat split; vm_compute; reflexivity].
  do 2 eexists; repeat split; vm_compute; reflexivity.
Qed.

Lemma png_body_witness :
  exists r,
    respond (example_request "/image.png") [] = Some r /\
    List.length (body r) = 69 /\
    firstn 8 (body r) = PNG.signature /\
    (exists ihdr iend,
        PNG.chunks 69 (skipn 8 (body r)) = Some [ihdr; png_idat; iend] /\
        PNG.chunk_type ihdr = PNG.IHDR /\
        PNG.chunk_type iend = PNG.IEND /\
        PNG.declared_size [ihdr; png_idat; iend] = Some (1, 1)%N /\
        PNG.chunk_ok ihdr = true /\
        PNG.chunk_ok iend = true) /\
    PNG.crc32 (PNG.chunk_type png_idat ++ PNG.chunk_data png_idat) = 0x18DD8DB0%N /\
    PNG.chunk_ok png_idat = false /\
    PNG.dimensions (body r) = None.
Proof.
  apply png_body.
  - discriminate.
  - reflexivity.
Defined.

(** With [xb0] as its last CRC byte (offset 56) the literal reads as a PNG
    file of size 1x1. *)
Lemma png_data_repaired :
  nth_error png_data 56 = Some xb4 /\
  PNG.dimensions (firstn 56 png_data ++ xb0 :: skipn 57 png_data) = Some (1, 1)%N.
Proof.
  split; vm_compute; reflexivity.
Qed.

(** ** The index page *)

(** C6: a GET request for the path [/] (one that carries a version) is
    answered with status 200, Content-Type [text/html; charset=utf-8] and a
    body in which each of /image.png, /image.jpg, /document.pdf and
    /archive.zip occurs. *)
Theorem index_page (self : request) (out : stdout) :
  request_version self <> "HTTP/0.9"%string ->
  path self = "/"%string ->
  exists r,
    respond self out = Some r /\
    status r = 200 /\
    get_header "Content-Type" (headers r) = Some "text/html; charset=utf-8"%string /\
    occurs_in (Py.b "/image.png") (body r) /\
    occurs_in (Py.b "/image.jpg") (body r) /\
    occurs_in (Py.b "/document.pdf") (body r) /\
    occurs_in (Py.b "/archive.zip") (body r).
Proof.
  intros V E.
  assert (B : do_GET self = ok_branch "text/html; charset=utf-8" html)
    by (unfold do_GET; rewrite E; reflexivity).
  destruct (serves_ok_branch self out _ _ V B) as [R _].
  eexists; split; [exact R|].
  repeat split; apply search_sound; vm_compute; reflexivity.
Qed.

Lemma index_page_witness :
  exists r,
    respond (example_request "/") [] = Some r /\
    status r = 200 /\
    get_header "Content-Type" (headers r) = Some "text/html; charset=utf-8"%string /\
    occurs_in (Py.b "/image.png") (body r) /\
    occurs_in (Py.b "/image.jpg") (body r) /\
    occurs_in (Py.b "/document.pdf") (body r) /\
    occurs_in (Py.b "/archive.zip") (body r).
Proof.
  apply index_page.
  - discriminate.
  - reflexivity.
Defined.

(** ** Routing *)

Lemma status_cases (self : request) (out : stdout) :
  request_version self <> "HTTP/0.9"%string ->
  (In (path self) routes /\ exists r, respond self out = Some r /\ status r = 200) \/
  (~ In (path self) routes /\ exists r, respond self out = Some r /\ status r = 404).
Proof.
  intros V.
  destruct (do_GET_cases self) as [[E B]|[[E B]|[[E B]|[[E B]|[[E B]|[E B]]]]]];
    [left | left | left | left | left | right];
    (split; [try (rewrite E; simpl; tauto); exact E|]);
    first [ destruct (serves_ok_branch self out _ _ V B) as [R _]
          | destruct (serves_not_found_branch self out V B) as [R _] ];
    eexists; split; [exact R | reflexivity
                   | exact R | reflexivity
                   | exact R | reflexivity
                   | exact R | reflexivity
                   | exact R | reflexivity
                   | exact R | reflexivity ].
Qed.

(** C7: a GET request (one that carries a version) is answered with status
    200 exactly when its path is, character for character, one of /,
    /image.png, /image.jpg, /document.pdf, /archive.zip; every other path is
    answered 404.  In particular one of the five followed by a question mark
    and a query, or by a slash, is answered 404. *)
Theorem routing_by_equality (self : request) (out : stdout) :
  request_version self <> "HTTP/0.9"%string ->
  ((exists r, respond self out = Some r /\ status r = 200) <-> In (path self) routes) /\
  ((exists r, respond self out = Some r /\ status r = 404) <-> ~ In (path self) routes) /\
  (forall p query : string,
      In p routes -> ~ In (p ++ "?" ++ query)%string routes /\ ~ In (p ++ "/")%string routes).
Proof.
  intros V.
  split; [|split].
  - split.
    + intros (r & R & S).
      destruct (status_cases self out V) as [[H _]|[_ (r' & R' & S')]]; [exact H|].
      rewrite R in R'; injection R' as <-; rewrite S in S'; discriminate S'.
    + intros H.
      destruct (status_cases self out V) as [[_ H']|[H' _]]; [exact H' | contradiction].
  - split.
    + intros (r & R & S) H.
      destruct (status_cases self out V) as [[_ (r' & R' & S')]|[H' _]]; [|contradiction].
      rewrite R in R'; injection R' as <-; rewrite S in S'; discriminate S'.
    + intros H.
      destruct (status_cases self out V) as [[H' _]|[_ H']]; [contradiction | exact H'].
  - intros p query H; simpl in H.
    destruct H as [<-|[<-|[<-|[<-|[<-|[]]]]]]; split; simpl;
      intros [H|[H|[H|[H|[H|[]]]]]]; discriminate H.
Qed.

Lemma routing_by_equality_witness :
  ((exists r, respond (example_request "/image.png?size=1") [] = Some r /\ status r = 200)
   <-> In (path (example_request "/image.png?size=1")) routes) /\
  ((exists r, respond (example_request "/image.png?size=1") [] = Some r /\ status r = 404)
   <-> ~ In (path (example_request "/image.png?size=1")) routes) /\
  (forall p query : string,
      In p routes -> ~ In (p ++ "?" ++ query)%string routes /\ ~ In (p ++ "/")%string routes).
Proof.
  apply (routing_by_equality (example_request "/image.png?size=1") []).
  discriminate.
Defined.

(** ** Content-Length *)

Lemma content_length_present (self : request) code mime value payload :
  get_header "Content-Length"
    (headers (reply self code [("Content-Type"%string, mime);
                               ("Content-Length"%string, value)] payload))
  = Some value.
Proof. reflexivity. Qed.

Lemma content_length_absent (self : request) code mime payload :
  get_header "Content-Length"
    (headers (reply self code [("Content-Type"%string, mime)] payload))
  = None.
Proof. reflexivity. Qed.

(** C10: for a GET request that carries a version, a Content-Length header
    is sent exactly when the status is 200.  Each of the five routes is
    answered 200 with a Content-Length whose value is a decimal numeral
    denoting the length of the body; every other path is answered 404 with
    the body [404 Not Found] and no Content-Length header at all. *)
Theorem content_length_iff_200 (self : request) (out : stdout) :
  request_version self <> "HTTP/0.9"%string ->
  exists r,
    respond self out = Some r /\
    (In (path self) routes ->
     status r = 200 /\
     exists value,
       get_header "Content-Length" (headers r) = Some value /\
       decimal_value value = Some (List.length (body r))) /\
    (~ In (path self) routes ->
     status r = 404 /\
     get_header "Content-Length" (headers r) = None /\
     body r = Py.b "404 Not Found") /\
    (get_header "Content-Length" (headers r) <> None <-> status r = 200).
Proof.
  intros V.
  destruct (do_GET_cases self) as [[E B]|[[E B]|[[E B]|[[E B]|[[E B]|[E B]]]]]].
  1-5: destruct (serves_ok_branch self out _ _ V B) as [R _];
       eexists; (split; [exact R|]);
       rewrite content_length_present; cbn [status body reply];
       (split; [intros _; split; [reflexivity|];
                eexists; split; [reflexivity | apply decimal_value_str] |]);
       (split; [intros H; exfalso; apply H; rewrite E; simpl; tauto |]);
       split; [reflexivity | discriminate].
  destruct (serves_not_found_branch self out V B) as [R _].
  eexists; (split; [exact R|]).
  rewrite content_length_absent; cbn [status body reply].
  split; [intros H; contradiction|].
  split; [intros _; repeat split|].
  split; [congruence | discriminate].
Qed.

Lemma content_length_iff_200_witness :
  exists r,
    respond (example_request "/") [] = Some r /\
    (In (path (example_request "/")) routes ->
     status r = 200 /\
     exists value,
       get_header "Content-Length" (headers r) = Some value /\
       decimal_value value = Some (List.length (body r))) /\
    (~ In (path (example_request "/")) routes ->
     status r = 404 /\
     get_header "Content-Length" (headers r) = None /\
     body r = Py.b "404 Not Found") /\
    (get_header "Content-Length" (headers r) <> None <-> status r = 200).
Proof.
  apply (content_length_iff_200 (example_request "/") []).
  discriminate.
Defined.

(** ** Logging *)

(** C8: serving a GET request prints exactly one line, and the timestamp and
    the request line of the request occur in it. *)
Theorem one_log_line (self : request) (out : stdout) :
  exists line,
    logged self out = Some (out ++ [line]) /\
    contains line (log_date_time_string self) /\
    contains line (requestline self).
Proof.
  destruct (logged_line self out) as (code & L & _).
  eexists; (split; [exact L|]); apply access_line_contains.
Qed.

(** ** Requests in flight together *)

Module ServerFacts.
Import Server.

Lemma exec_connection rq c k out k' out' :
  exec rq c (k, out) = Some (k', out') -> k' = on_connection rq c k.
Proof.
  destruct c; unfold exec, on_connection, BaseHTTPRequestHandler.send_response;
    cbn [fst snd].
  - rewrite log_request_prints; intros H; now injection H as <- _.
  - intros H; now injection H as <- _.
  - intros H; now injection H as <- _.
  - intros H; now injection H as <- _.
Qed.

Lemma run_connection rq calls k out k' out' :
  run rq calls (k, out) = Some (k', out') -> k' = all_on_connection rq calls k.
Proof.
  revert k out; induction calls as [|c calls IH]; intros k out; simpl.
  - intros H; now injection H as <- _.
  - destruct (exec rq c (k, out)) as [[k1 out1]|] eqn:E; [|discriminate].
    apply exec_connection in E; subst k1.
    apply IH.
Qed.

Lemma start_on_course (rq : request) : on_course (start rq) rq.
Proof. now split. Qed.

Lemma step_job_on_course j rq out j' out' :
  on_course j rq -> step_job j out = Some (j', out') -> on_course j' rq.
Proof.
  intros [Hs Hc]; unfold step_job.
  destruct (pending j) as [|c rest] eqn:P.
  - intros H; injection H as <- _; split; [exact Hs | now rewrite P].
  - destruct (exec (self j) c (conn j, out)) as [[k out1]|] eqn:E; [|discriminate].
    intros H; injection H as <- _.
    apply exec_connection in E; rewrite Hs in E; subst k.
    split; [exact Hs | exact Hc].
Qed.

Lemma step_at_on_course i js rqs out js' out' :
  Forall2 on_course js rqs -> step_at i js out = Some (js', out') ->
  Forall2 on_course js' rqs.
Proof.
  intros F; revert i out js' out'.
  induction F as [|j rq js rqs Hj F IH]; intros i out js' out'; simpl.
  - destruct i; discriminate.
  - destruct i as [|i]; simpl.
    + destruct (step_job j out) as [[j1 out1]|] eqn:E; [|discriminate].
      intros H; injection H as <- _.
      constructor; [exact (step_job_on_course _ _ _ _ _ Hj E) | exact F].
    + destruct (step_at i js out) as [[js1 out1]|] eqn:E; [|discriminate].
      intros H; injection H as <- _.
      constructor; [exact Hj | exact (IH _ _ _ _ E)].
Qed.

Lemma schedule_on_course order js rqs out js' out' :
  Forall2 on_course js rqs -> schedule order (js, out) = Some (js', out') ->
  Forall2 on_course js' rqs.
Proof.
  revert js out; induction order as [|i order IH]; intros js out F; simpl.
  - intros H; now injection H as <- _.
  - destruct (step_at i js out) as [[js1 out1]|] eqn:E; [|discriminate].
    apply (IH js1 out1).
    exact (step_at_on_course _ _ _ _ _ _ F E).
Qed.

Lemma starts_on_course (rqs : list request) : Forall2 on_course (map start rqs) rqs.
Proof.
  induction rqs as [|rq rqs IH]; simpl; constructor;
    [apply start_on_course | exact IH].
Qed.

(** No call of a handler raises, so every schedule that names jobs of the
    pool runs to its end. *)
Lemma exec_total rq c k out : exists k' out', exec rq c (k, out) = Some (k', out').
Proof.
  destruct c; unfold exec, BaseHTTPRequestHandler.send_response; cbn [fst snd];
    [rewrite log_request_prints| | |]; do 2 eexists; reflexivity.
Qed.

Lemma step_job_total j out : exists j' out', step_job j out = Some (j', out').
Proof.
  unfold step_job; destruct (pending j) as [|c rest].
  - now exists j, out.
  - destruct (exec_total (self j) c (conn j) out) as (k & out1 & ->).
    do 2 eexists; reflexivity.
Qed.

Lemma step_at_total i js out :
  i < List.length js ->
  exists js' out', step_at i js out = Some (js', out') /\
                   List.length js' = List.length js.
Proof.
  revert i; induction js as [|j js IH]; intros i Hi; simpl in *; [lia|].
  destruct i as [|i]; simpl.
  - destruct (step_job_total j out) as (j1 & out1 & ->).
    now exists (j1 :: js), out1.
  - destruct (IH i ltac:(lia)) as (js1 & out1 & -> & L).
    exists (j :: js1), out1; simpl; now rewrite L.
Qed.

Lemma schedule_total order js out :
  Forall (fun i => i < List.length js) order ->
  exists s', schedule order (js, out) = Some s'.
Proof.
  revert js out; induction order as [|i order IH]; intros js out F; simpl.
  - now eexists.
  - inversion F as [|? ? Hi F']; subst.
    destruct (step_at_total i js out Hi) as (js1 & out1 & -> & L).
    apply IH; now rewrite L.
Qed.

(** Served alone, a request that carries a version always gets a response. *)
Lemma respond_total (rq : request) (out : stdout) :
  request_version rq <> "HTTP/0.9"%string ->
  exists k out', handle rq out = Some (k, out') /\
                 exists r, read_response (wfile k) = Some r.
Proof.
  intros V.
  destruct (do_GET_cases rq) as [[_ B]|[[_ B]|[[_ B]|[[_ B]|[[_ B]|[_ B]]]]]];
    first [ rewrite (handle_ok_branch rq out _ _ B)
          | rewrite (handle_not_found_branch rq out B) ];
    do 2 eexists; (split; [reflexivity|]);
    cbn [wfile]; unfold written; rewrite (with_version _ V);
    simpl; eexists; reflexivity.
Qed.

Lemma finished_received j rq :
  request_version rq <> "HTTP/0.9"%string ->
  on_course j rq -> finished j ->
  exists r, received j = Some r /\ respond rq [] = Some r.
Proof.
  intros V [_ Hc] Hf; unfold finished in Hf; rewrite Hf in Hc; simpl in Hc.
  destruct (respond_total rq [] V) as (k & out' & H & r & R).
  exists r; unfold received, respond.
  rewrite H, Hc, <- (run_connection _ _ _ _ _ _ H).
  now split.
Qed.

End ServerFacts.

(** C9: let any number of GET requests (each carrying a version) be in
    flight together, each on a connection of its own, their calls interleaved
    in any order.  Once every handler has returned, each client has received
    exactly the response its request gets when it is served alone, and for a
    binary endpoint its body is the literal of that endpoint and its content
    type the endpoint's: nothing written for one request reaches the
    connection of another. *)
Theorem no_cross_request_contamination
  (rqs : list request) (order : list nat) (out : stdout)
  (js : list Server.job) (out' : stdout) :
  Forall (fun rq => request_version rq <> "HTTP/0.9"%string) rqs ->
  Server.schedule order (map Server.start rqs, out) = Some (js, out') ->
  Forall Server.finished js ->
  Forall2 (fun j rq => own_response (Server.received j) rq) js rqs.
Proof.
  intros HV H Hfin.
  pose proof (ServerFacts.schedule_on_course _ _ _ _ _ _
                (ServerFacts.starts_on_course rqs) H) as F.
  clear H; induction F as [|j rq js' rqs' Hj F IH]; constructor.
  - assert (V : request_version rq <> "HTTP/0.9"%string) by now inversion HV.
    destruct (ServerFacts.finished_received j rq V Hj) as (r & Hr & Hs);
      [now inversion Hfin|].
    exists r; split; [exact Hr|]; split; [exact Hs|].
    intros mime payload Hin.
    destruct (serves_ok_branch rq [] _ _ V (do_GET_binary _ _ _ Hin)) as [R _].
    rewrite R in Hs; injection Hs as <-.
    split; reflexivity.
  - apply IH; [now inversion HV | now inversion Hfin].
Qed.

Lemma no_cross_request_contamination_witness :
  exists js out',
    Server.schedule [0; 1; 1; 0; 0; 1; 1; 0; 0; 1]
      (map Server.start [example_request "/image.png"; example_request "/archive.zip"], [])
    = Some (js, out') /\
    Forall Server.finished js /\
    Forall2 (fun j rq => own_response (Server.received j) rq)
            js [example_request "/image.png"; example_request "/archive.zip"].
Proof.
  do 2 eexists.
  split; [vm_compute; reflexivity|].
  split; [repeat constructor|].
  eapply (no_cross_request_contamination
            [example_request "/image.png"; example_request "/archive.zip"]
            [0; 1; 1; 0; 0; 1; 1; 0; 0; 1] []).
  - repeat constructor; discriminate.
  - vm_compute; reflexivity.
  - repeat constructor.
Defined.

(** * Further properties of the script *)

(** ** The wire *)

Lemma status_for_route (p : string) :
  (In p routes /\ status_for p = 200) \/ (~ In p routes /\ status_for p = 404).
Proof.
  unfold status_for.
  destruct (existsb (String.eqb p) routes) eqn:E.
  - left; split; [|reflexivity].
    apply existsb_exists in E as (q & Hq & Hpq).
    apply String.eqb_eq in Hpq; now subst q.
  - right; split; [|reflexivity].
    intros H.
    assert (existsb (String.eqb p) routes = true)
      by (apply existsb_exists; exists p; split; [exact H | apply String.eqb_refl]).
    congruence.
Qed.

(** X1: whatever the path and the version, the handler returns normally with
    no header left in its buffer.  For a request that carries a version, what
    it has written is, in this order: one status line, the headers Server,
    Date and Content-Type, at most one Content-Length header, the blank line,
    and the body in one piece; a Content-Length, when there is one, is a
    decimal numeral denoting the length of the body.  The five routes get
    status 200 and a Content-Length, every other path status 404 and none.
    For a request without a version ([HTTP/0.9]) the body alone is written. *)
Theorem response_on_the_wire (self : request) (out : stdout) :
  exists k out' code mime content_length payload,
    handle self out = Some (k, out') /\
    headers_buffer k = [] /\
    (request_version self <> "HTTP/0.9"%string ->
     wfile k = [ status_line code;
                 header_line "Server" (version_string self);
                 header_line "Date" (date_time_string self);
                 header_line "Content-Type" mime ]
               ++ content_length ++ [ blank_line; data payload ]) /\
    (request_version self = "HTTP/0.9"%string -> wfile k = [data payload]) /\
    (content_length = [] \/
     exists value,
       content_length = [header_line "Content-Length" value] /\
       decimal_value value = Some (List.length payload)) /\
    (In (path self) routes -> code = 200 /\ content_length <> []) /\
    (~ In (path self) routes -> code = 404 /\ content_length = []).
Proof.
  assert (W : forall code extra payload,
             (request_version self <> "HTTP/0.9"%string ->
              written self code extra payload
              = status_line code
                :: header_line "Server" (version_string self)
                :: header_line "Date" (date_time_string self)
                :: map (fun h => header_line (fst h) (snd h)) extra
                ++ [blank_line; data payload]) /\
             (request_version self = "HTTP/0.9"%string ->
              written self code extra payload = [data payload])).
  { intros code extra payload; unfold written; split; intros V.
    - now rewrite (with_version _ V).
    - unfold BaseHTTPRequestHandler.sends_headers; now rewrite V. }
  destruct (do_GET_cases self) as [[E B]|[[E B]|[[E B]|[[E B]|[[E B]|[E B]]]]]].
  1-5: pose proof (handle_ok_branch self out _ _ B) as H;
       do 3 eexists; eexists; eexists [_]; eexists;
       (split; [exact H|]); (split; [reflexivity|]);
       (split; [intros V; cbn [wfile]; now rewrite (proj1 (W _ _ _) V)|]);
       (split; [intros V; cbn [wfile]; now rewrite (proj2 (W _ _ _) V)|]);
       (split; [right; eexists; split; [reflexivity | apply decimal_value_str]|]);
       split; [intros _; split; [reflexivity | discriminate]
              | intros N; exfalso; apply N; rewrite E; simpl; tauto].
  pose proof (handle_not_found_branch self out B) as H.
  do 3 eexists; eexists; exists []; eexists.
  split; [exact H|]; split; [reflexivity|].
  split; [intros V; cbn [wfile]; now rewrite (proj1 (W _ _ _) V)|].
  split; [intros V; cbn [wfile]; now rewrite (proj2 (W _ _ _) V)|].
  split; [now left|].
  split; [intros N; contradiction | intros _; now split].
Qed.

(** X2: the line a GET request leaves in the log is
    [[timestamp] "request line" status -], where the status is a decimal
    numeral: 200 when the path is one of the five routes, 404 otherwise, and
    the size is a dash.  For a request that carries a version this is the
    status the client receives; a request without a version leaves the same
    line although no status line is sent. *)
Theorem log_records_status (self : request) (out : stdout) :
  exists status_text,
    logged self out
    = Some (out ++ [ ("[" ++ log_date_time_string self ++ "] " ++ Py.dq
                      ++ requestline self ++ Py.dq ++ " " ++ status_text
                      ++ " -")%string ]) /\
    decimal_value status_text = Some (status_for (path self)) /\
    (request_version self <> "HTTP/0.9"%string ->
     exists r, respond self out = Some r /\ status r = status_for (path self)).
Proof.
  destruct (logged_line self out) as (code & L & C).
  assert (S : code = status_for (path self)).
  { destruct (status_for_route (path self)) as [[H ->]|[H ->]];
      destruct C as [[H' ->]|[H' ->]]; try reflexivity; contradiction. }
  exists (Py.str code); split; [exact L|].
  split; [rewrite <- S; apply decimal_value_str|].
  intros V; rewrite <- S.
  destruct (status_cases self out V) as [[H R]|[H R]];
    destruct C as [[H' ->]|[H' ->]]; try contradiction; exact R.
Qed.

(** ** [log_message] on any format *)






(** ** Content-Length, read back *)

(** X4: whenever the response to a GET request that carries a version has a
    Content-Length header, its value is a decimal numeral and the number it
    denotes is the length of the body. *)
Theorem content_length_reads_back (self : request) (out : stdout) :
  request_version self <> "HTTP/0.9"%string ->
  exists r,
    respond self out = Some r /\
    forall value,
      get_header "Content-Length" (headers r) = Some value ->
      decimal_value value = Some (List.length (body r)).
Proof.
  intros V.
  destruct (do_GET_cases self) as [[_ B]|[[_ B]|[[_ B]|[[_ B]|[[_ B]|[_ B]]]]]].
  1-5: destruct (serves_ok_branch self out _ _ V B) as [R _];
       eexists; (split; [exact R|]); intros value;
       rewrite content_length_present; intros H; injection H as <-;
       apply decimal_value_str.
  destruct (serves_not_found_branch self out V B) as [R _].
  eexists; (split; [exact R|]); intros value.
  rewrite content_length_absent; discriminate.
Qed.

Lemma content_length_reads_back_witness :
  exists r,
    respond (example_request "/image.jpg") [] = Some r /\
    forall value,
      get_header "Content-Length" (headers r) = Some value ->
      decimal_value value = Some (List.length (body r)).
Proof.
  apply (content_length_reads_back (example_request "/image.jpg") []).
  discriminate.
Defined.

(** ** A run of the script *)

Module MainFacts.
Import Main.






End MainFacts.


(** X6: the URLs the banner shows are exactly the paths that a GET request
    (one that carries a version) is answered with status 200 for. *)
Theorem banner_shows_what_is_served (self : request) (out : stdout) :
  request_version self <> "HTTP/0.9"%string ->
  (In (path self) Main.advertised <->
   exists r, respond self out = Some r /\ status r = 200).
Proof.
  intros V.
  assert (A : forall p, In p Main.advertised <-> In p routes).
  { intros p; change Main.advertised
      with ["/"; "/image.png"; "/image.jpg"; "/document.pdf"; "/archive.zip"]%string.
    unfold routes; simpl; tauto. }
  rewrite A; split.
  - intros H.
    destruct (status_cases self out V) as [[_ H']|[H' _]]; [exact H' | contradiction].
  - intros (r & R & S).
    destruct (status_cases self out V) as [[H _]|[_ (r' & R' & S')]]; [exact H|].
    rewrite R in R'; injection R' as <-; rewrite S in S'; discriminate S'.
Qed.

Lemma banner_shows_what_is_served_witness :
  In (path (example_request "/document.pdf")) Main.advertised <->
  exists r, respond (example_request "/document.pdf") [] = Some r /\ status r = 200.
Proof.
  apply (banner_shows_what_is_served (example_request "/document.pdf") []).
  discriminate.
Defined.

(** ** The links of the index page *)

Lemma body_of_index (index : request) (out : stdout) (page : response) :
  request_version index <> "HTTP/0.9"%string ->
  path index = "/"%string -> respond index out = Some page -> body page = html.
Proof.
  intros V E R.
  assert (B : do_GET index = ok_branch "text/html; charset=utf-8" html)
    by (unfold do_GET; rewrite E; reflexivity).
  destruct (serves_ok_branch index out _ _ V B) as [R' _].
  rewrite R in R'; now injection R' as ->.
Qed.

Lemma html_links :
  Index.page_links html
  = [ ("/image.png", "image/png"); ("/image.jpg", "image/jpeg");
      ("/document.pdf", "application/pdf"); ("/archive.zip", "application/zip") ]%string.
Proof. vm_compute; reflexivity. Qed.

(** X7: the anchors of the page served at [/] are the four binary endpoints,
    each followed by its content type in parentheses, and none of them is
    dead: a GET request (one that carries a version) for the target of an
    anchor is answered with status 200 and the content type the page gives
    for it. *)
Theorem index_links_are_served (index : request) (out : stdout) (page : response) :
  request_version index <> "HTTP/0.9"%string ->
  path index = "/"%string ->
  respond index out = Some page ->
  (forall target announced,
      In (target, announced) (Index.page_links (body page)) <->
      exists payload, In (target, (announced, payload)) binary_routes) /\
  (forall (self : request) (out' : stdout) target announced,
      request_version self <> "HTTP/0.9"%string ->
      In (target, announced) (Index.page_links (body page)) ->
      path self = target ->
      exists r,
        respond self out' = Some r /\
        status r = 200 /\
        get_header "Content-Type" (headers r) = Some announced).
Proof.
  intros V E R.
  rewrite (body_of_index index out page V E R), html_links.
  assert (L : forall target announced,
             In (target, announced)
                [ ("/image.png", "image/png"); ("/image.jpg", "image/jpeg");
                  ("/document.pdf", "application/pdf");
                  ("/archive.zip", "application/zip") ]%string <->
             exists payload, In (target, (announced, payload)) binary_routes).
  { intros target announced; unfold binary_routes; split.
    - simpl; intros [H|[H|[H|[H|[]]]]]; injection H as <- <-;
        eexists; simpl; eauto 6.
    - intros (payload & H); simpl in H.
      destruct H as [H|[H|[H|[H|[]]]]]; injection H as <- <- _; simpl; tauto. }
  split; [exact L|].
  intros self out' target announced Vs Hin Hp.
  apply L in Hin as (payload & Hin); subst target.
  destruct (serves_ok_branch self out' _ _ Vs (do_GET_binary _ _ _ Hin)) as [Rs _].
  eexists; split; [exact Rs|]; split; reflexivity.
Qed.

Lemma index_links_are_served_witness :
  exists page,
    respond (example_request "/") [] = Some page /\
    (forall target announced,
        In (target, announced) (Index.page_links (body page)) <->
        exists payload, In (target, (announced, payload)) binary_routes) /\
    (forall (self : request) (out' : stdout) target announced,
        request_version self <> "HTTP/0.9"%string ->
        In (target, announced) (Index.page_links (body page)) ->
        path self = target ->
        exists r,
          respond self out' = Some r /\
          status r = 200 /\
          get_header "Content-Type" (headers r) = Some announced).
Proof.
  eexists; split; [reflexivity|].
  apply (index_links_are_served (example_request "/") []);
    [discriminate | reflexivity | reflexivity].
Defined.

(** ** The other payloads *)

Lemma binary_body (self : request) (out : stdout) mime payload :
  request_version self <> "HTTP/0.9"%string ->
  In (path self, (mime, payload)) binary_routes ->
  exists r, respond self out = Some r /\ body r = payload.
Proof.
  intros V H.
  destruct (serves_ok_branch self out _ _ V (do_GET_binary _ _ _ H)) as [R _].
  eexists; split; [exact R | reflexivity].
Qed.

(** X8: the body answered to GET /image.jpg (a request that carries a
    version) has the layout of a JPEG file: start of image, the marker
    segments APP0 (a JFIF header), DQT, SOF0, DHT, DHT and SOS, each as long
    as its length field says, two bytes of scan data, end of image.  The frame header declares 8-bit samples, height 1,
    width 1 and one component. *)
Theorem jpeg_body (self : request) (out : stdout) :
  request_version self <> "HTTP/0.9"%string ->
  path self = "/image.jpg"%string ->
  exists r segs,
    respond self out = Some r /\
    JPEG.read (body r) = Some (segs, [x3f; x00]) /\
    map JPEG.marker segs = [xe0; xdb; xc0; xc4; xc4; xda] /\
    (exists app0, hd_error segs = Some app0 /\
                  firstn 5 (JPEG.content app0) = Py.b "JFIF" ++ [x00]) /\
    JPEG.frame segs = Some (8, 1, 1, 1)%N.
Proof.
  intros V E.
  destruct (binary_body self out "image/jpeg" jpeg_data V) as (r & R & Hb);
    [rewrite E; simpl; tauto|].
  exists r; eexists; rewrite Hb; split; [exact R|].
  split; [vm_compute; reflexivity|].
  split; [reflexivity|].
  split; [eexists; split; reflexivity | reflexivity].
Qed.

Lemma jpeg_body_witness :
  exists r segs,
    respond (example_request "/image.jpg") [] = Some r /\
    JPEG.read (body r) = Some (segs, [x3f; x00]) /\
    map JPEG.marker segs = [xe0; xdb; xc0; xc4; xc4; xda] /\
    (exists app0, hd_error segs = Some app0 /\
                  firstn 5 (JPEG.content app0) = Py.b "JFIF" ++ [x00]) /\
    JPEG.frame segs = Some (8, 1, 1, 1)%N.
Proof.
  apply jpeg_body; [discriminate | reflexivity].
Defined.

(** X9: the body answered to GET /document.pdf (a request that carries a
    version) starts with the header line [%PDF-1.4] and ends with [%%EOF];
    the three in-use entries of its cross-reference table, 9, 52 and 101, are
    the offsets at which the objects 1, 2 and 3 start.  The number after [startxref] is 185, whereas the
    cross-reference table starts at offset 178. *)
Theorem pdf_body (self : request) (out : stdout) :
  request_version self <> "HTTP/0.9"%string ->
  path self = "/document.pdf"%string ->
  exists r,
    respond self out = Some r /\
    let file := string_of_list_byte (body r) in
    PDF.line_offset "%PDF-1.4" file = Some 0 /\
    last (text_lines file) EmptyString = "%%EOF"%string /\
    PDF.table file = [9; 52; 101] /\
    map (fun n => PDF.line_offset (Py.str n ++ " 0 obj") file) [1; 2; 3]
    = [Some 9; Some 52; Some 101] /\
    PDF.line_offset "xref" file = Some 178 /\
    PDF.startxref file = Some 185.
Proof.
  intros V E.
  destruct (binary_body self out "application/pdf" pdf_data V) as (r & R & Hb);
    [rewrite E; simpl; tauto|].
  exists r; rewrite Hb; split; [exact R|].
  repeat split; vm_compute; reflexivity.
Qed.

Lemma pdf_body_witness :
  exists r,
    respond (example_request "/document.pdf") [] = Some r /\
    let file := string_of_list_byte (body r) in
    PDF.line_offset "%PDF-1.4" file = Some 0 /\
    last (text_lines file) EmptyString = "%%EOF"%string /\
    PDF.table file = [9; 52; 101] /\
    map (fun n => PDF.line_offset (Py.str n ++ " 0 obj") file) [1; 2; 3]
    = [Some 9; Some 52; Some 101] /\
    PDF.line_offset "xref" file = Some 178 /\
    PDF.startxref file = Some 185.
Proof.
  apply pdf_body; [discriminate | reflexivity].
Defined.

(** X10: the body answered to GET /archive.zip (a request that carries a
    version) is one complete end-of-central-directory record and nothing
    else: no entries, a central directory of size 0 at offset 0, disk numbers
    0, and an empty comment, as its comment-length field says. *)
Theorem zip_record (self : request) (out : stdout) :
  request_version self <> "HTTP/0.9"%string ->
  path self = "/archive.zip"%string ->
  exists r,
    respond self out = Some r /\
    ZIP.read_record (body r)
    = Some {| ZIP.disk := 0; ZIP.directory_disk := 0;
              ZIP.entries_on_disk := 0; ZIP.entries := 0;
              ZIP.directory_size := 0; ZIP.directory_offset := 0;
              ZIP.comment := [] |}.
Proof.
  intros V E.
  destruct (binary_body self out "application/zip" zip_data V) as (r & R & Hb);
    [rewrite E; simpl; tauto|].
  exists r; rewrite Hb; split; [exact R | reflexivity].
Qed.

Lemma zip_record_witness :
  exists r,
    respond (example_request "/archive.zip") [] = Some r /\
    ZIP.read_record (body r)
    = Some {| ZIP.disk := 0; ZIP.directory_disk := 0;
              ZIP.entries_on_disk := 0; ZIP.entries := 0;
              ZIP.directory_size := 0; ZIP.directory_offset := 0;
              ZIP.comment := [] |}.
Proof.
  apply zip_record; [discriminate | reflexivity].
Defined.

(** ** The usage text against the handler *)

(** X11: of the four endpoints the module docstring lists, /image.png,
    /document.pdf and /archive.zip are answered with status 200 (to a GET
    request that carries a version), but /video.mp4 is answered 404: no
    branch of [do_GET] serves it.  The list leaves out /image.jpg and the
    index page. *)
Theorem usage_lists_a_missing_endpoint :
  In "/video.mp4"%string Usage.documented /\
  ~ In "/image.jpg"%string Usage.documented /\
  ~ In "/"%string Usage.documented /\
  forall (self : request) (out : stdout),
    request_version self <> "HTTP/0.9"%string ->
    In (path self) Usage.documented ->
    exists r,
      respond self out = Some r /\
      ((path self = "/video.mp4"%string /\ status r = 404) \/
       (path self <> "/video.mp4"%string /\ status r = 200)).
Proof.
  change Usage.documented
    with ["/image.png"; "/document.pdf"; "/video.mp4"; "/archive.zip"]%string.
  split; [simpl; tauto|].
  split; [simpl; intros [H|[H|[H|[H|[]]]]]; discriminate H|].
  split; [simpl; intros [H|[H|[H|[H|[]]]]]; discriminate H|].
  intros self out V H.
  destruct (status_cases self out V) as [[Hr (r & R & S)]|[Hr (r & R & S)]];
    exists r; (split; [exact R|]).
  - right; split; [|exact S].
    intros E; rewrite E in Hr; simpl in Hr.
    destruct Hr as [Hr|[Hr|[Hr|[Hr|[Hr|[]]]]]]; discriminate Hr.
  - left; split; [|exact S].
    simpl in H; destruct H as [H|[H|[H|[H|[]]]]]; try (now symmetry);
      exfalso; apply Hr; rewrite <- H; simpl; tauto.
Qed.

(** ** The log when requests are in flight together *)

Module LogFacts.
Import Server.

Lemma exec_log rq c k out k' out' :
  exec rq c (k, out) = Some (k', out') -> out' = out ++ call_log rq c.
Proof.
  destruct c; unfold exec, call_log, BaseHTTPRequestHandler.send_response;
    cbn [fst snd].
  - rewrite log_request_prints; intros H; now injection H as _ <-.
  - intros H; injection H as _ <-; now rewrite app_nil_r.
  - intros H; injection H as _ <-; now rewrite app_nil_r.
  - intros H; injection H as _ <-; now rewrite app_nil_r.
Qed.

Lemma step_job_log j out j' out' :
  step_job j out = Some (j', out') ->
  exists printed,
    out' = out ++ printed /\ still_to_print j = printed ++ still_to_print j'.
Proof.
  unfold step_job, still_to_print.
  destruct (pending j) as [|c rest] eqn:P.
  - intros H; injection H as <- <-.
    exists []; rewrite app_nil_r, P; now split.
  - destruct (exec (self j) c (conn j, out)) as [[k out1]|] eqn:E; [|discriminate].
    intros H; injection H as <- <-.
    exists (call_log (self j) c); split; [exact (exec_log _ _ _ _ _ _ E) | reflexivity].
Qed.

Lemma step_at_log i js out js' out' :
  step_at i js out = Some (js', out') ->
  exists printed,
    out' = out ++ printed /\
    Permutation.Permutation (flat_map still_to_print js)
                            (printed ++ flat_map still_to_print js').
Proof.
  revert i js' out'; induction js as [|j js IH]; intros i js' out'; simpl.
  - destruct i; discriminate.
  - destruct i as [|i]; simpl.
    + destruct (step_job j out) as [[j1 out1]|] eqn:E; [|discriminate].
      intros H; injection H as <- <-.
      destruct (step_job_log _ _ _ _ E) as (printed & Ho & Hs).
      exists printed; split; [exact Ho|].
      simpl; rewrite Hs, <- app_assoc; apply Permutation.Permutation_refl.
    + destruct (step_at i js out) as [[js1 out1]|] eqn:E; [|discriminate].
      intros H; injection H as <- <-.
      destruct (IH _ _ _ E) as (printed & Ho & Hp).
      exists printed; split; [exact Ho|].
      simpl.
      eapply Permutation.perm_trans;
        [apply Permutation.Permutation_app_head; exact Hp|].
      apply Permutation.Permutation_app_swap_app.
Qed.

Lemma schedule_log order js out js' out' :
  schedule order (js, out) = Some (js', out') ->
  exists printed,
    out' = out ++ printed /\
    Permutation.Permutation (flat_map still_to_print js)
                            (printed ++ flat_map still_to_print js').
Proof.
  revert js out; induction order as [|i order IH]; intros js out; simpl.
  - intros H; injection H as <- <-.
    exists []; rewrite app_nil_r; split; [reflexivity | apply Permutation.Permutation_refl].
  - destruct (step_at i js out) as [[js1 out1]|] eqn:E; [|discriminate].
    intros H.
    destruct (step_at_log _ _ _ _ _ E) as (p1 & -> & H1).
    destruct (IH _ _ H) as (p2 & -> & H2).
    exists (p1 ++ p2); rewrite <- !app_assoc; split; [reflexivity|].
    eapply Permutation.perm_trans; [exact H1|].
    apply Permutation.Permutation_app_head; exact H2.
Qed.

Lemma finished_print_nothing js :
  Forall finished js -> flat_map still_to_print js = [].
Proof.
  induction 1 as [|j js Hj _ IH]; simpl; [reflexivity|].
  unfold still_to_print at 1; rewrite Hj; simpl; exact IH.
Qed.

Lemma start_prints_one_line (rq : request) :
  still_to_print (start rq) = [access_line rq (status_for (path rq))].
Proof.
  unfold still_to_print, start; cbn [self pending].
  destruct (do_GET_cases rq) as [[E B]|[[E B]|[[E B]|[[E B]|[[E B]|[E B]]]]]];
    rewrite B; try (rewrite E; reflexivity).
  destruct (status_for_route (path rq)) as [[H _]|[_ H]]; [contradiction|].
  now rewrite H.
Qed.

Lemma starts_print (rqs : list request) :
  flat_map still_to_print (map start rqs)
  = map (fun rq => access_line rq (status_for (path rq))) rqs.
Proof.
  induction rqs as [|rq rqs IH]; simpl; [reflexivity|].
  now rewrite start_prints_one_line, IH.
Qed.

End LogFacts.

(** X12: let any number of GET requests be in flight together, their
    handlers' calls interleaved in any order.  Once every handler has
    returned, standard output holds what it held before, followed by exactly
    one line for each request, each with the status of its response: the
    lines of the requests in some order, none missing, none twice. *)
Theorem interleaved_log
  (rqs : list request) (order : list nat) (out : stdout)
  (js : list Server.job) (out' : stdout) :
  Server.schedule order (map Server.start rqs, out) = Some (js, out') ->
  Forall Server.finished js ->
  exists printed,
    out' = out ++ printed /\
    Permutation.Permutation
      printed (map (fun rq => access_line rq (status_for (path rq))) rqs).
Proof.
  intros H Hfin.
  destruct (LogFacts.schedule_log _ _ _ _ _ H) as (printed & Ho & Hp).
  exists printed; split; [exact Ho|].
  rewrite LogFacts.starts_print, (LogFacts.finished_print_nothing _ Hfin),
    app_nil_r in Hp.
  now apply Permutation.Permutation_sym.
Qed.

Lemma interleaved_log_witness :
  exists js out' printed,
    Server.schedule [1; 0; 1; 0; 0; 1; 1; 0; 0; 1]
      (map Server.start [example_request "/"; example_request "/missing"],
       ["earlier"%string])
    = Some (js, out') /\
    Forall Server.finished js /\
    out' = ["earlier"%string] ++ printed /\
    Permutation.Permutation
      printed
      (map (fun rq => access_line rq (status_for (path rq)))
           [example_request "/"; example_request "/missing"]).
Proof.
  assert (S : exists js out',
             Server.schedule [1; 0; 1; 0; 0; 1; 1; 0; 0; 1]
               (map Server.start [example_request "/"; example_request "/missing"],
                ["earlier"%string])
             = Some (js, out') /\ Forall Server.finished js).
  { do 2 eexists; split; [vm_compute; reflexivity | repeat constructor]. }
  destruct S as (js & out' & S & F).
  destruct (interleaved_log _ _ _ _ _ S F) as (printed & Ho & Hp).
  exists js, out', printed; repeat split; assumption.
Defined.
